(** * Quadrature rules of EasyFEA: [EasyFEA/fem/_gauss.py]

    A shallow embedding of the class [Gauss]: the per-family generators
    ([_Triangle], [_Quadrangle], [_Tetrahedron], [_Hexahedron], [_Prism])
    and the selector [_Gauss_factory].

    Python's [float] is IEEE 754 binary64; it is embedded as the primitive
    [float] of Rocq, whose operations are the correctly rounded binary64
    ones.  Every literal of the source is written as the same decimal
    literal, every [/], [*], [-] and [np.sqrt] as the same operation.
    Exceptions are embedded as the [Err] side of a result type. *)

From Stdlib Require Import Floats List String Bool Arith ZArith QArith Qabs Lia.
From Stdlib Require Import Permutation.
Import ListNotations.

Set Warnings "-inexact-float".

Open Scope string_scope.
Open Scope float_scope.

(** ** Exceptions and the error monad *)

Inductive error : Type :=
| AssertionError
| UnboundLocalError (name : string)
| ValueError
| Exception (msg : string).

Inductive result (A : Type) : Type :=
| Ok (a : A)
| Err (e : error).

Arguments Ok {A} a.
Arguments Err {A} e.

Definition bind {A B : Type} (r : result A) (k : A -> result B) : result B :=
  match r with
  | Ok a => k a
  | Err e => Err e
  end.

Notation "x <- r ;; k" := (bind r (fun x => k))
  (at level 61, r at next level, right associativity).
Notation "' p <- r ;; k" := (bind r (fun x => let p := x in k))
  (at level 61, p pattern, r at next level, right associativity).

(** Reading a local variable: an unassigned one raises [UnboundLocalError]. *)
Definition local {A : Type} (name : string) (v : option A) : result A :=
  match v with
  | Some a => Ok a
  | None => Err (UnboundLocalError name)
  end.

(** [assert c] *)
Definition assert (c : bool) : result unit :=
  if c then Ok tt else Err AssertionError.

Definition is_ok {A : Type} (r : result A) : bool :=
  match r with Ok _ => true | Err _ => false end.

(** ** Numbers *)

(** What a generator binds to an axis or to [weights]: a bare number
    ([ksis = 1/3]) or a Python list of numbers.  Integer entries of the
    source ([1], [0]) are embedded as the floats of the same value, which is
    what [np.asarray] makes of them next to floats. *)
Inductive value : Type :=
| Num (f : float)
| Lst (l : list float).

(** [np.asarray(v).reshape(-1)]: the entries in order. *)
Definition ravel (v : value) : list float :=
  match v with
  | Num f => [f]
  | Lst l => l
  end.

(** [l * n] on Python lists. *)
Fixpoint times {A : Type} (l : list A) (n : nat) : list A :=
  match n with
  | O => []
  | S n' => (l ++ times l n')%list
  end.

(** [c ** n] for a small literal [n]. The source's [**] goes through the C
    library's [pow]; repeated multiplication agrees with it up to the last
    bit, which no statement below depends on. *)
Fixpoint fpow (c : float) (n : nat) : float :=
  match n with
  | O => 1
  | S O => c
  | S n' => fpow c n' * c
  end.

(** Python's built-in [sum]: left to right, from [0]. *)
Definition fsum (l : list float) : float := fold_left PrimFloat.add l 0.

(** [abs(x - y) <= 1e-12], the tolerance the specification names. *)
Definition tol : float := 1e-12.
Definition close (x y : float) : bool := PrimFloat.leb (abs (x - y)) tol.

(** The exact rational value of a finite binary64 number. *)
Definition finite (f : float) : bool :=
  match Prim2SF f with
  | S754_zero _ | S754_finite _ _ _ => true
  | _ => false
  end.

Definition exact (f : float) : Q :=
  match Prim2SF f with
  | S754_finite s m e =>
      Qred ((if s then -1 else 1) * inject_Z (Z.pos m) * Qpower 2 e)%Q
  | _ => 0%Q
  end.

Definition qsum (l : list float) : Q :=
  fold_left (fun acc f => Qred (acc + exact f)%Q) l 0%Q.

Definition qtol : Q := (1 # 1000000000000)%Q.

(** [|sum of the exact values - m| <= 1e-12], with no rounding anywhere. *)
Definition qclose (l : list float) (m : Q) : bool :=
  forallb finite l && Qle_bool (Qabs (qsum l - m)) qtol.

(** ** [_utils.ElemType] and [_utils.MatrixType] *)

(** Modelled from the spec: [EasyFEA/fem/_utils.py] is not part of the
    excerpt.  [ElemType] is the enumeration of element types the factory
    compares [elemType: str] with; each member is taken to be the string of
    its own name. *)
Module ElemType.
Definition SEG2 := "SEG2".
Definition SEG3 := "SEG3".
Definition SEG4 := "SEG4".
Definition TRI3 := "TRI3".
Definition TRI6 := "TRI6".
Definition TRI10 := "TRI10".
Definition QUAD4 := "QUAD4".
Definition QUAD8 := "QUAD8".
Definition QUAD9 := "QUAD9".
Definition TETRA4 := "TETRA4".
Definition TETRA10 := "TETRA10".
Definition HEXA8 := "HEXA8".
Definition HEXA20 := "HEXA20".
Definition PRISM6 := "PRISM6".
Definition PRISM15 := "PRISM15".
End ElemType.

(** Modelled from the spec: [MatrixType] has the three members the
    docstring of [Gauss.__init__] lists (stiffness, mass, beam), and
    [Get_types()] returns them. *)
Module MatrixType.
Definition rigi := "rigi".
Definition mass := "mass".
Definition beam := "beam".
Definition Get_types : list string := [rigi; mass; beam].
End MatrixType.

(** [s in l] on strings. *)
Definition mem (s : string) (l : list string) : bool :=
  existsb (String.eqb s) l.

(** ** [np.polynomial.legendre.leggauss] *)

(** Modelled from the spec: NumPy's Gauss-Legendre routine is outside the
    repository.  Section 4.2 of the specification makes it the standard rule
    on [-1, 1], "the canonical roots/weights of the Legendre polynomial of
    matching degree", for the degrees the factory asks for (1, 2, 3, 4, 6);
    the table holds those constants to binary64 precision, nodes ascending
    as NumPy returns them.  Degree 0 raises [ValueError], as in NumPy; the
    model answers the same for the degrees the factory never requests
    ([leggauss_requested] below shows that none of them is reached). *)
Definition leggauss (deg : nat) : result (value * value) :=
  match deg with
  | 1%nat => Ok (Lst [0], Lst [2])
  | 2%nat =>
      let a := 1 / sqrt 3 in
      Ok (Lst [-a; a], Lst [1; 1])
  | 3%nat =>
      let a := sqrt (3 / 5) in
      Ok (Lst [-a; 0; a], Lst [5 / 9; 8 / 9; 5 / 9])
  | 4%nat =>
      let a := 0.3399810435848563 in
      let b := 0.8611363115940526 in
      let p := 0.6521451548625461 in
      let q := 0.3478548451374538 in
      Ok (Lst [-b; -a; a; b], Lst [q; p; p; q])
  | 6%nat =>
      let a := 0.2386191860831969 in
      let b := 0.6612093864662645 in
      let c := 0.9324695142031521 in
      let p := 0.4679139345726910 in
      let q := 0.3607615730481386 in
      let r := 0.1713244923791704 in
      Ok (Lst [-c; -b; -a; a; b; c], Lst [r; q; p; p; q; r])
  | _ => Err ValueError
  end.

(** ** The class [Gauss] *)

Module Gauss.

(** [_Triangle(nPg)]: available [1, 3, 6, 7, 12].  With another [nPg] no
    branch assigns [ksis] and the [return] raises. *)
Definition _Triangle (nPg : nat) : result (value * value * value) :=
  match nPg with
  | 1%nat =>
      let ksis := 1 / 3 in
      let etas := 1 / 3 in
      let weights := 1 / 2 in
      Ok (Num ksis, Num etas, Num weights)
  | 3%nat =>
      let ksis := [1 / 6; 2 / 3; 1 / 6] in
      let etas := [1 / 6; 1 / 6; 2 / 3] in
      let weights := times [1 / 6] 3 in
      Ok (Lst ksis, Lst etas, Lst weights)
  | 6%nat =>
      let a := 0.445948490915965 in
      let b := 0.091576213509771 in
      let p1 := 0.11169079483905 in
      let p2 := 0.0549758718227661 in
      let ksis := [b; 1 - 2 * b; b; a; a; 1 - 2 * a] in
      let etas := [b; b; 1 - 2 * b; 1 - 2 * a; a; a] in
      let weights := [p2; p2; p2; p1; p1; p1] in
      Ok (Lst ksis, Lst etas, Lst weights)
  | 7%nat =>
      let a := 0.470142064105115 in
      let b := 0.101286507323456 in
      let p1 := 0.066197076394253 in
      let p2 := 0.062969590272413 in
      let ksis := [1 / 3; a; 1 - 2 * a; a; b; 1 - 2 * b; b] in
      let etas := [1 / 3; a; a; 1 - 2 * a; b; b; 1 - 2 * b] in
      let weights := [9 / 80; p1; p1; p1; p2; p2; p2] in
      Ok (Lst ksis, Lst etas, Lst weights)
  | 12%nat =>
      let a := 0.063089014491502 in
      let b := 0.249286745170910 in
      let c := 0.310352451033785 in
      let d := 0.053145049844816 in
      let p1 := 0.025422453185103 in
      let p2 := 0.058393137863189 in
      let p3 := 0.041425537809187 in
      let ksis :=
        [a; 1 - 2 * a; a; b; 1 - 2 * b; b; c; d; 1 - c - d; 1 - c - d; c; d] in
      let etas :=
        [a; a; 1 - 2 * a; b; b; 1 - 2 * b; d; c; c; d; 1 - c - d; 1 - c - d] in
      let weights := [p1; p1; p1; p2; p2; p2; p3; p3; p3; p3; p3; p3] in
      Ok (Lst ksis, Lst etas, Lst weights)
  | _ => Err (UnboundLocalError "ksis")
  end.

(** [_Quadrangle(nPg)]: available [4, 9]. *)
Definition _Quadrangle (nPg : nat) : result (value * value * value) :=
  match nPg with
  | 4%nat =>
      let a := 1 / sqrt 3 in
      let ksis := [-a; a; a; -a] in
      let etas := [-a; -a; a; a] in
      let weights := times [1] nPg in
      Ok (Lst ksis, Lst etas, Lst weights)
  | 9%nat =>
      let a := 0.774596669241483 in
      let ksis := [-a; a; a; -a; 0; a; 0; -a; 0] in
      let etas := [-a; -a; a; a; -a; 0; a; 0; 0] in
      let weights :=
        [25 / 81; 25 / 81; 25 / 81; 25 / 81;
         40 / 81; 40 / 81; 40 / 81; 40 / 81; 64 / 81] in
      Ok (Lst ksis, Lst etas, Lst weights)
  | _ => Err (UnboundLocalError "ksis")
  end.

(** [_Tetrahedron(nPg)]: available [1, 4, 5, 15]. *)
Definition _Tetrahedron (nPg : nat)
  : result (value * value * value * value) :=
  match nPg with
  | 1%nat =>
      let x := 1 / 4 in
      let y := 1 / 4 in
      let z := 1 / 4 in
      let weights := 1 / 6 in
      Ok (Num x, Num y, Num z, Num weights)
  | 4%nat =>
      let a := (5 - sqrt 5) / 20 in
      let b := (5 + 3 * sqrt 5) / 20 in
      let x := [a; a; a; b] in
      let y := [a; a; b; a] in
      let z := [a; b; a; a] in
      let weights := times [1 / 24] nPg in
      Ok (Lst x, Lst y, Lst z, Lst weights)
  | 5%nat =>
      let a := 1 / 4 in
      let b := 1 / 6 in
      let c := 1 / 2 in
      let x := [a; b; b; b; c] in
      let y := [a; b; b; c; b] in
      let z := [a; b; c; b; b] in
      let weights := [(-2) / 15; 3 / 40; 3 / 40; 3 / 40; 3 / 40] in
      Ok (Lst x, Lst y, Lst z, Lst weights)
  | 15%nat =>
      let a := 1 / 4 in
      let b1 := (7 + sqrt 15) / 34 in
      let b2 := (7 - sqrt 15) / 34 in
      let c1 := (13 - 3 * sqrt 15) / 34 in
      let c2 := (13 + 3 * sqrt 15) / 34 in
      let d := (5 - sqrt 15) / 20 in
      let e := (5 + sqrt 15) / 20 in
      let x := [a; b1; b1; b1; c1; b2; b2; b2; c2; d; d; e; d; e; e] in
      let y := [a; b1; b1; c1; b1; b2; b2; c2; b2; d; e; d; e; d; e] in
      let z := [a; b1; c1; b1; b1; b2; c2; b2; b2; e; d; d; e; e; d] in
      let p1 := 8 / 405 in
      let p2 := (2665 - 14 * sqrt 15) / 226800 in
      let p3 := (2665 + 14 * sqrt 15) / 226800 in
      let p4 := 5 / 567 in
      let weights :=
        [p1; p2; p2; p2; p2; p3; p3; p3; p3; p4; p4; p4; p4; p4; p4] in
      Ok (Lst x, Lst y, Lst z, Lst weights)
  | _ => Err (UnboundLocalError "x")
  end.

(** [_Hexahedron(nPg)]: available [8, 27] (two separate [if]s, which
    exclude each other). *)
Definition _Hexahedron (nPg : nat)
  : result (value * value * value * value) :=
  match nPg with
  | 8%nat =>
      let a := 1 / sqrt 3 in
      let x := [-a; -a; -a; -a; a; a; a; a] in
      let y := [-a; -a; a; a; -a; -a; a; a] in
      let z := [-a; a; -a; a; -a; a; -a; a] in
      let weights := times [1] nPg in
      Ok (Lst x, Lst y, Lst z, Lst weights)
  | 27%nat =>
      let a := sqrt (3 / 5) in
      let c1 := 5 / 9 in
      let c2 := 8 / 9 in
      let x := (times [-a] 9 ++ times [0] 9 ++ times [a] 9)%list in
      let y := times [-a; -a; -a; 0; 0; 0; a; a; a] 3 in
      let z := times [-a; 0; a] 9 in
      let c13 := fpow c1 3 in
      let c23 := fpow c2 3 in
      let c12 := fpow c1 2 * c2 in
      let c22 := c1 * fpow c2 2 in
      let weights :=
        [c13; c12; c13; c12; c22; c12; c13; c12; c13;
         c12; c22; c12; c22; c23; c22; c12; c22; c12;
         c13; c12; c13; c12; c22; c12; c13; c12; c13] in
      Ok (Lst x, Lst y, Lst z, Lst weights)
  | _ => Err (UnboundLocalError "x")
  end.

(** The branches of [_Prism(nPg)]: the arrays [X], [Y], [Z] and [weights]
    as the source computes them, before the remap. *)
Definition _Prism_XYZ (nPg : nat)
  : option (list float * list float * list float * list float) :=
  match nPg with
  | 6%nat =>
      let a := 1 / sqrt 3 in
      let X := [-a; -a; -a; a; a; a] in
      let Y := [0.5; 0; 0.5; 0.5; 0; 0.5] in
      let Z := [0.5; 0.5; 0; 0.5; 0.5; 0] in
      let weights := times [1 / 6] nPg in
      Some (X, Y, Z, weights)
  | 8%nat =>
      let a := 0.577350269189626 in
      let X := [-a; -a; -a; -a; a; a; a; a] in
      let Y := times [1 / 3; 0.6; 0.2; 0.2] 2 in
      let Z := times [1 / 3; 0.2; 0.6; 0.2] 2 in
      let weights := times [(-27) / 96; 25 / 96; 25 / 96; 25 / 96] 2 in
      Some (X, Y, Z, weights)
  | _ => None
  end.

(** [_Prism(nPg)]: available [6, 8].  The tail of the function,
    [x = np.array(Y); y = np.array(Z); z = np.array(X)], exposes the
    arrays in the order (Y, Z, X). *)
Definition _Prism (nPg : nat) : result (value * value * value * value) :=
  match _Prism_XYZ nPg with
  | Some (X, Y, Z, weights) =>
      let x := Y in
      let y := Z in
      let z := X in
      Ok (Lst x, Lst y, Lst z, Lst weights)
  | None => Err (UnboundLocalError "Y")
  end.

(** The local variables of [_Gauss_factory] that outlive the ladder of
    branches.  [axes] stands for [x], for [xis, etas] or for [x, y, z],
    which a branch assigns together. *)
Record locals : Type := Locals {
  dim : nat;
  nPg : option nat;
  axes : option (list value);
  weights : option value
}.

(** [np.asarray(axes).T.reshape((n, d))]: one row per point.  NumPy
    raises [ValueError] when the axes are ragged or do not hold [n*d]
    numbers. *)
Definition reshape_rows (axes : list (list float)) (n : nat)
  : result (list (list float)) :=
  if forallb (fun ax => Nat.eqb (List.length ax) n) axes
  then Ok (map (fun i => map (fun ax => nth i ax 0) axes) (seq 0 n))
  else Err ValueError.

(** [np.asarray(weights).reshape(n)] *)
Definition reshape_vec (w : list float) (n : nat) : result (list float) :=
  if Nat.eqb (List.length w) n then Ok w else Err ValueError.

(** The name the final [if dim == ...] reads first. *)
Definition first_axis (dim : nat) : string :=
  match dim with
  | 2%nat => "xis"
  | _ => "x"
  end.

(** The ladder [if elemType == ... elif ... else: raise]. *)
Definition branches (elemType matrixType : string) : result locals :=
  let rigi := String.eqb matrixType MatrixType.rigi in
  let mass := String.eqb matrixType MatrixType.mass in
  let beam := String.eqb matrixType MatrixType.beam in
  if String.eqb elemType ElemType.SEG2 then
    let dim := 1%nat in
    let nPg :=
      if rigi then Some 1%nat
      else if mem matrixType [MatrixType.mass; MatrixType.beam]
      then Some 2%nat else None in
    n <- local "nPg" nPg ;;
    '(x, weights) <- leggauss n ;;
    Ok (Locals dim nPg (Some [x]) (Some weights))
  else if String.eqb elemType ElemType.SEG3 then
    let dim := 1%nat in
    let nPg :=
      if rigi then Some 1%nat
      else if mem matrixType [MatrixType.mass] then Some 3%nat
      else if beam then Some 4%nat else None in
    n <- local "nPg" nPg ;;
    '(x, weights) <- leggauss n ;;
    Ok (Locals dim nPg (Some [x]) (Some weights))
  else if String.eqb elemType ElemType.SEG4 then
    let dim := 1%nat in
    let nPg :=
      if rigi then Some 2%nat
      else if mass then Some 4%nat
      else if beam then Some 6%nat else None in
    n <- local "nPg" nPg ;;
    '(x, weights) <- leggauss n ;;
    Ok (Locals dim nPg (Some [x]) (Some weights))
  else if String.eqb elemType ElemType.TRI3 then
    let dim := 2%nat in
    let nPg :=
      if rigi then Some 1%nat
      else if mass then Some 3%nat else None in
    n <- local "nPg" nPg ;;
    '(xis, etas, weights) <- _Triangle n ;;
    Ok (Locals dim nPg (Some [xis; etas]) (Some weights))
  else if String.eqb elemType ElemType.TRI6 then
    let dim := 2%nat in
    let nPg :=
      if rigi then Some 3%nat
      else if mass then Some 6%nat else None in
    n <- local "nPg" nPg ;;
    '(xis, etas, weights) <- _Triangle n ;;
    Ok (Locals dim nPg (Some [xis; etas]) (Some weights))
  else if String.eqb elemType ElemType.TRI10 then
    let dim := 2%nat in
    let nPg := 6%nat in
    '(xis, etas, weights) <- _Triangle nPg ;;
    Ok (Locals dim (Some nPg) (Some [xis; etas]) (Some weights))
  else if String.eqb elemType ElemType.QUAD4 then
    let dim := 2%nat in
    let nPg := 4%nat in
    '(xis, etas, weights) <- _Quadrangle nPg ;;
    Ok (Locals dim (Some nPg) (Some [xis; etas]) (Some weights))
  else if String.eqb elemType ElemType.QUAD8 then
    let dim := 2%nat in
    let nPg :=
      if rigi then Some 4%nat
      else if mass then Some 9%nat else None in
    n <- local "nPg" nPg ;;
    '(xis, etas, weights) <- _Quadrangle n ;;
    Ok (Locals dim nPg (Some [xis; etas]) (Some weights))
  else if String.eqb elemType ElemType.QUAD9 then
    let dim := 2%nat in
    let nPg := 9%nat in
    '(xis, etas, weights) <- _Quadrangle nPg ;;
    Ok (Locals dim (Some nPg) (Some [xis; etas]) (Some weights))
  else if String.eqb elemType ElemType.TETRA4 then
    let dim := 3%nat in
    let nPg :=
      if rigi then Some 1%nat
      else if mass then Some 4%nat else None in
    n <- local "nPg" nPg ;;
    '(x, y, z, weights) <- _Tetrahedron n ;;
    Ok (Locals dim nPg (Some [x; y; z]) (Some weights))
  else if String.eqb elemType ElemType.TETRA10 then
    let dim := 3%nat in
    let nPg := 4%nat in
    '(x, y, z, weights) <- _Tetrahedron nPg ;;
    Ok (Locals dim (Some nPg) (Some [x; y; z]) (Some weights))
  else if String.eqb elemType ElemType.HEXA8 then
    let dim := 3%nat in
    if mem matrixType [MatrixType.rigi; MatrixType.mass] then
      let nPg := 8%nat in
      '(x, y, z, weights) <- _Hexahedron nPg ;;
      Ok (Locals dim (Some nPg) (Some [x; y; z]) (Some weights))
    else Ok (Locals dim None None None)
  else if String.eqb elemType ElemType.HEXA20 then
    let dim := 3%nat in
    if mem matrixType [MatrixType.rigi; MatrixType.mass] then
      let nPg := 8%nat in
      '(x, y, z, weights) <- _Hexahedron nPg ;;
      Ok (Locals dim (Some nPg) (Some [x; y; z]) (Some weights))
    else Ok (Locals dim None None None)
  else if String.eqb elemType ElemType.PRISM6 then
    let dim := 3%nat in
    if mem matrixType [MatrixType.rigi; MatrixType.mass] then
      let nPg := 6%nat in
      '(x, y, z, weights) <- _Prism nPg ;;
      Ok (Locals dim (Some nPg) (Some [x; y; z]) (Some weights))
    else Ok (Locals dim None None None)
  else if String.eqb elemType ElemType.PRISM15 then
    let dim := 3%nat in
    if mem matrixType [MatrixType.rigi; MatrixType.mass] then
      let nPg := 6%nat in
      '(x, y, z, weights) <- _Prism nPg ;;
      Ok (Locals dim (Some nPg) (Some [x; y; z]) (Some weights))
    else Ok (Locals dim None None None)
  else Err (Exception "Element not implemented.").

(** The tail of the factory: [coord] by dimension, then [weights]. *)
Definition finish (l : locals) : result (list (list float) * list float) :=
  coord <-
    match dim l with
    | 1%nat | 2%nat | 3%nat =>
        a <- local (first_axis (dim l)) (axes l) ;;
        n <- local "nPg" (nPg l) ;;
        c <- reshape_rows (map ravel a) n ;;
        Ok (Some c)
    | _ => Ok None
    end ;;
  w <- local "weights" (weights l) ;;
  n <- local "nPg" (nPg l) ;;
  weights <- reshape_vec (ravel w) n ;;
  coord <- local "coord" coord ;;
  Ok (coord, weights).

(** [_Gauss_factory(elemType, matrixType)] *)
Definition _Gauss_factory (elemType matrixType : string)
  : result (list (list float) * list float) :=
  _ <- assert (mem matrixType MatrixType.Get_types) ;;
  l <- branches elemType matrixType ;;
  finish l.

(** The object: [__init__] stores what the factory returns; [nPg] is
    [weights.size]. *)
Record t : Type := Make {
  coord : list (list float);
  weights_of : list float
}.

Definition __init__ (elemType matrixType : string) : result t :=
  '(coord, weights) <- _Gauss_factory elemType matrixType ;;
  Ok (Make coord weights).

Definition nPg_of (g : t) : nat := List.length (weights_of g).

End Gauss.

(** ** The catalogue and the point-count table *)

(** The element types the ladder of [_Gauss_factory] has a branch for. *)
Definition catalogue : list string :=
  [ElemType.SEG2; ElemType.SEG3; ElemType.SEG4;
   ElemType.TRI3; ElemType.TRI6; ElemType.TRI10;
   ElemType.QUAD4; ElemType.QUAD8; ElemType.QUAD9;
   ElemType.TETRA4; ElemType.TETRA10;
   ElemType.HEXA8; ElemType.HEXA20;
   ElemType.PRISM6; ElemType.PRISM15].

(** The reference shapes. *)
Inductive shape : Type :=
| Segment | Triangle | Quadrilateral | Tetrahedron | Hexahedron | Prism.

(** The assignments [nPg = ...] of the ladder, read off as a table:
    element type, matrix type, family, number of points.
    [point_count_factory] below proves that it is the factory's. *)
Definition table : list (string * string * (shape * nat)) :=
  let rigi := MatrixType.rigi in
  let mass := MatrixType.mass in
  let beam := MatrixType.beam in
  [ (ElemType.SEG2, rigi, (Segment, 1%nat));
    (ElemType.SEG2, mass, (Segment, 2%nat));
    (ElemType.SEG2, beam, (Segment, 2%nat));
    (ElemType.SEG3, rigi, (Segment, 1%nat));
    (ElemType.SEG3, mass, (Segment, 3%nat));
    (ElemType.SEG3, beam, (Segment, 4%nat));
    (ElemType.SEG4, rigi, (Segment, 2%nat));
    (ElemType.SEG4, mass, (Segment, 4%nat));
    (ElemType.SEG4, beam, (Segment, 6%nat));
    (ElemType.TRI3, rigi, (Triangle, 1%nat));
    (ElemType.TRI3, mass, (Triangle, 3%nat));
    (ElemType.TRI6, rigi, (Triangle, 3%nat));
    (ElemType.TRI6, mass, (Triangle, 6%nat));
    (ElemType.TRI10, rigi, (Triangle, 6%nat));
    (ElemType.TRI10, mass, (Triangle, 6%nat));
    (ElemType.TRI10, beam, (Triangle, 6%nat));
    (ElemType.QUAD4, rigi, (Quadrilateral, 4%nat));
    (ElemType.QUAD4, mass, (Quadrilateral, 4%nat));
    (ElemType.QUAD4, beam, (Quadrilateral, 4%nat));
    (ElemType.QUAD8, rigi, (Quadrilateral, 4%nat));
    (ElemType.QUAD8, mass, (Quadrilateral, 9%nat));
    (ElemType.QUAD9, rigi, (Quadrilateral, 9%nat));
    (ElemType.QUAD9, mass, (Quadrilateral, 9%nat));
    (ElemType.QUAD9, beam, (Quadrilateral, 9%nat));
    (ElemType.TETRA4, rigi, (Tetrahedron, 1%nat));
    (ElemType.TETRA4, mass, (Tetrahedron, 4%nat));
    (ElemType.TETRA10, rigi, (Tetrahedron, 4%nat));
    (ElemType.TETRA10, mass, (Tetrahedron, 4%nat));
    (ElemType.TETRA10, beam, (Tetrahedron, 4%nat));
    (ElemType.HEXA8, rigi, (Hexahedron, 8%nat));
    (ElemType.HEXA8, mass, (Hexahedron, 8%nat));
    (ElemType.HEXA20, rigi, (Hexahedron, 8%nat));
    (ElemType.HEXA20, mass, (Hexahedron, 8%nat));
    (ElemType.PRISM6, rigi, (Prism, 6%nat));
    (ElemType.PRISM6, mass, (Prism, 6%nat));
    (ElemType.PRISM15, rigi, (Prism, 6%nat));
    (ElemType.PRISM15, mass, (Prism, 6%nat)) ].

Fixpoint lookup {A : Type} (elemType matrixType : string)
    (t : list (string * string * A)) : option A :=
  match t with
  | [] => None
  | (e, m, a) :: t' =>
      if String.eqb elemType e && String.eqb matrixType m then Some a
      else lookup elemType matrixType t'
  end.

Definition entry (elemType matrixType : string) : option (shape * nat) :=
  lookup elemType matrixType table.

Definition point_count (elemType matrixType : string) : option nat :=
  option_map snd (entry elemType matrixType).

(** The supported pairs. *)
Definition supported : list (string * string) := map fst table.

(** ** Rules by family and point count *)

(** The point counts each generator lists as available (for the segment,
    the degrees the factory passes to [leggauss]). *)
Definition available (s : shape) : list nat :=
  match s with
  | Segment => [1; 2; 3; 4; 6]
  | Triangle => [1; 3; 6; 7; 12]
  | Quadrilateral => [4; 9]
  | Tetrahedron => [1; 4; 5; 15]
  | Hexahedron => [8; 27]
  | Prism => [6; 8]
  end%nat.

(** What a branch of the factory leaves in the locals when it calls the
    generator of family [s] with [n] points. *)
Definition generate (s : shape) (n : nat) : result Gauss.locals :=
  match s with
  | Segment =>
      '(x, weights) <- leggauss n ;;
      Ok (Gauss.Locals 1 (Some n) (Some [x]) (Some weights))
  | Triangle =>
      '(xis, etas, weights) <- Gauss._Triangle n ;;
      Ok (Gauss.Locals 2 (Some n) (Some [xis; etas]) (Some weights))
  | Quadrilateral =>
      '(xis, etas, weights) <- Gauss._Quadrangle n ;;
      Ok (Gauss.Locals 2 (Some n) (Some [xis; etas]) (Some weights))
  | Tetrahedron =>
      '(x, y, z, weights) <- Gauss._Tetrahedron n ;;
      Ok (Gauss.Locals 3 (Some n) (Some [x; y; z]) (Some weights))
  | Hexahedron =>
      '(x, y, z, weights) <- Gauss._Hexahedron n ;;
      Ok (Gauss.Locals 3 (Some n) (Some [x; y; z]) (Some weights))
  | Prism =>
      '(x, y, z, weights) <- Gauss._Prism n ;;
      Ok (Gauss.Locals 3 (Some n) (Some [x; y; z]) (Some weights))
  end.

(** The rule of family [s] with [n] points, in the factory's layout. *)
Definition rule (s : shape) (n : nat)
  : result (list (list float) * list float) :=
  l <- generate s n ;; Gauss.finish l.

Definition rule_weights (s : shape) (n : nat) : list float :=
  match rule s n with
  | Ok (_, w) => w
  | Err _ => []
  end.

Definition rule_points (s : shape) (n : nat) : list (list float) :=
  match rule s n with
  | Ok (c, _) => c
  | Err _ => []
  end.

(** ** The properties of the specification *)

(** The measure of each reference element as the specification lists it
    (invariant 3 of its data model). *)
Definition measure (s : shape) : Q :=
  match s with
  | Segment => 2
  | Triangle => 1 # 2
  | Quadrilateral => 4
  | Tetrahedron => 1 # 6
  | Hexahedron => 8
  | Prism => 1 # 2
  end%Q.

(** The same as a Python float. *)
Definition measure_float (s : shape) : float :=
  match s with
  | Segment => 2
  | Triangle => 0.5
  | Quadrilateral => 4
  | Tetrahedron => 1 / 6
  | Hexahedron => 8
  | Prism => 0.5
  end.

(** [abs(sum(weights) - m) <= 1e-12] as Python computes it, and the same
    bound on the exact sum of the weights. *)
Definition sums_to (w : list float) (m : float) (mq : Q) : bool :=
  close (fsum w) m && qclose w mq.

Definition weight_sum_ok (s : shape) (n : nat) : bool :=
  match rule s n with
  | Ok (_, w) => sums_to w (measure_float s) (measure s)
  | Err _ => false
  end.

(** Membership in the reference domains, on exact values. *)
Definition qle (a b : Q) : bool := Qle_bool a b.

Definition in_unit_interval (x : float) : bool :=
  finite x && qle (-1) (exact x) && qle (exact x) 1.

Definition in_unit_triangle (xi eta : float) : bool :=
  finite xi && finite eta &&
  qle 0 (exact xi) && qle 0 (exact eta) && qle (exact xi + exact eta) 1.

Definition in_unit_tetrahedron (x y z : float) : bool :=
  finite x && finite y && finite z &&
  qle 0 (exact x) && qle 0 (exact y) && qle 0 (exact z) &&
  qle (exact x + exact y + exact z) 1.

(** A point, as a row of [coord], against the domain of its family.  The
    prism's rows are (in-plane, in-plane, through-thickness). *)
Definition in_domain (s : shape) (p : list float) : bool :=
  match s, p with
  | Segment, [x] => in_unit_interval x
  | Triangle, [xi; eta] => in_unit_triangle xi eta
  | Quadrilateral, [x; y] => in_unit_interval x && in_unit_interval y
  | Tetrahedron, [x; y; z] => in_unit_tetrahedron x y z
  | Hexahedron, [x; y; z] =>
      in_unit_interval x && in_unit_interval y && in_unit_interval z
  | Prism, [x; y; z] => in_unit_triangle x y && in_unit_interval z
  | _, _ => false
  end.

Definition negative (w : float) : bool := PrimFloat.ltb w 0.

(** ** The prism as a product rule *)

(** The points of a prism rule in the internal axes of the source
    (X, Y, Z, weight), before the remap. *)
Definition prism_raw (n : nat) : list (float * float * float * float) :=
  match Gauss._Prism_XYZ n with
  | Some (X, Y, Z, w) => combine (combine (combine X Y) Z) w
  | None => []
  end.

(** The product of an in-plane rule (Y, Z, weight) with a rule through the
    thickness (X, weight): every in-plane point at every level, the
    weights multiplied. *)
Definition product_rule (tri : list (float * float * float))
    (line : list (float * float)) : list (float * float * float * float) :=
  flat_map
    (fun l => map (fun t => (fst l, fst (fst t), snd (fst t), snd t * snd l)) tri)
    line.

Definition in_plane (p : float * float * float * float) : float * float :=
  (snd (fst (fst p)), snd (fst p)).

Definition thickness (p : float * float * float * float) : float :=
  fst (fst (fst p)).

(** "Built by combining a triangle-type rule of [tn] points with a
    line-type rule of [ln] points": the points of the rule are those of the
    product, in some order. *)
Definition built_from (n tn ln : nat) : Prop :=
  exists tri line,
    List.length tri = tn /\ List.length line = ln /\
    Permutation (prism_raw n) (product_rule tri line).

(** The in-plane rules and the through-thickness rules the two prism
    rules are products of. *)
Definition midside_triangle : list (float * float * float) :=
  [(0.5, 0.5, 1 / 6); (0, 0.5, 1 / 6); (0.5, 0, 1 / 6)].

Definition centroid_triangle : list (float * float * float) :=
  [(1 / 3, 1 / 3, (-27) / 96); (0.6, 0.2, 25 / 96);
   (0.2, 0.6, 25 / 96); (0.2, 0.2, 25 / 96)].

Definition two_point_line (a : float) : list (float * float) :=
  [(-a, 1); (a, 1)].

(** A message names [s] when [s] occurs in it. *)
Definition names (msg s : string) : bool :=
  match String.index 0 s msg with
  | Some _ => true
  | None => false
  end.

(** * Properties *)

(** ** Case analysis on the inputs of the factory *)

Ltac in_list := simpl; repeat (first [left; reflexivity | right]).

Ltac by_cases H :=
  simpl in H;
  repeat (destruct H as [H | H]; [subst | ]); try contradiction.

Lemma mem_In (s : string) (l : list string) : mem s l = true <-> In s l.
Proof.
  unfold mem. rewrite existsb_exists. split.
  - intros [x [Hx Heq]]. apply String.eqb_eq in Heq. now subst.
  - intros H. exists s. split; [assumption | apply String.eqb_refl].
Qed.

Lemma assert_registered (m : string) :
  In m MatrixType.Get_types -> assert (mem m MatrixType.Get_types) = Ok tt.
Proof.
  intros H. apply mem_In in H. unfold assert. now rewrite H.
Qed.

Lemma assert_unregistered (m : string) :
  ~ In m MatrixType.Get_types ->
  assert (mem m MatrixType.Get_types) = Err AssertionError.
Proof.
  intros H. unfold assert.
  destruct (mem m MatrixType.Get_types) eqn:E; [ | reflexivity].
  apply mem_In in E. contradiction.
Qed.

(** An unregistered matrix type stops the factory at its first line. *)
Lemma factory_unregistered (e m : string) :
  ~ In m MatrixType.Get_types ->
  Gauss._Gauss_factory e m = Err AssertionError.
Proof.
  intros H. unfold Gauss._Gauss_factory.
  now rewrite (assert_unregistered m H).
Qed.

(** Outside the catalogue every test of the ladder fails and the final
    [else] raises. *)
Lemma branches_outside (e m : string) :
  ~ In e catalogue ->
  Gauss.branches e m = Err (Exception "Element not implemented.").
Proof.
  intros H. unfold Gauss.branches.
  repeat match goal with
  | |- context [String.eqb e ?c] =>
      destruct (String.eqb_spec e c) as [Heq | _];
      [exfalso; apply H; rewrite Heq; in_list | ]
  end.
  reflexivity.
Qed.

Lemma factory_outside (e m : string) :
  In m MatrixType.Get_types -> ~ In e catalogue ->
  Gauss._Gauss_factory e m = Err (Exception "Element not implemented.").
Proof.
  intros Hm He. unfold Gauss._Gauss_factory.
  rewrite (assert_registered m Hm). simpl.
  now rewrite (branches_outside e m He).
Qed.

(** On the catalogue the factory is the table: a pair with an entry gets
    the rule of that family and point count, a pair without one dies on a
    variable that no branch assigned. *)
Lemma factory_catalogued (e m : string) :
  In e catalogue -> In m MatrixType.Get_types ->
  match entry e m with
  | Some (s, n) =>
      Gauss._Gauss_factory e m = rule s n /\ is_ok (rule s n) = true
  | None =>
      Gauss._Gauss_factory e m = Err (UnboundLocalError "nPg") \/
      Gauss._Gauss_factory e m = Err (UnboundLocalError "x")
  end.
Proof.
  intros He Hm. by_cases He; by_cases Hm; vm_compute; auto.
Qed.

(** No entry outside the catalogue or for an unregistered matrix type. *)
Lemma entry_In (e m : string) (a : shape * nat) :
  entry e m = Some a -> In e catalogue /\ In m MatrixType.Get_types.
Proof.
  unfold entry.
  assert (G : forall t : list (string * string * (shape * nat)),
    Forall (fun r => In (fst (fst r)) catalogue /\
                     In (snd (fst r)) MatrixType.Get_types) t ->
    lookup e m t = Some a -> In e catalogue /\ In m MatrixType.Get_types).
  { induction t as [ | [[e' m'] a'] t IH]; simpl; intros HF H.
    - discriminate.
    - inversion HF as [ | ? ? [H1 H2] HF']; subst. simpl in H1, H2.
      destruct (String.eqb_spec e e') as [-> | _];
        destruct (String.eqb_spec m m') as [-> | _]; simpl in H; auto. }
  apply (G table).
  cbv zeta delta [table].
  repeat (apply Forall_cons; [split; in_list | ]). apply Forall_nil.
Qed.

(** The table is the factory's: a pair with an entry of [n] points gets a
    rule of [n] rows and [n] weights. *)
Lemma point_count_factory :
  forallb
    (fun r =>
       match Gauss._Gauss_factory (fst (fst r)) (snd (fst r)) with
       | Ok (c, w) =>
           Nat.eqb (List.length c) (snd (snd r)) &&
           Nat.eqb (List.length w) (snd (snd r)) &&
           forallb (fun p => Nat.eqb (List.length p)
                               (match fst (snd r) with
                                | Segment => 1
                                | Triangle | Quadrilateral => 2
                                | _ => 3
                                end)) c
       | Err _ => false
       end)
    table = true.
Proof. vm_compute. reflexivity. Qed.

Lemma point_count_entry (e m : string) :
  point_count e m = None -> entry e m = None.
Proof.
  unfold point_count. destruct (entry e m); [discriminate | reflexivity].
Qed.

(** Membership in the two finite lists is decidable. *)
Lemma In_dec_string (s : string) (l : list string) : {In s l} + {~ In s l}.
Proof. apply in_dec, string_dec. Qed.

(** A result of the factory is a rule, or one of three exceptions. *)
Lemma factory_outcomes (e m : string) :
  is_ok (Gauss._Gauss_factory e m) = true \/
  Gauss._Gauss_factory e m = Err AssertionError \/
  Gauss._Gauss_factory e m = Err (Exception "Element not implemented.") \/
  (In e catalogue /\
   (Gauss._Gauss_factory e m = Err (UnboundLocalError "nPg") \/
    Gauss._Gauss_factory e m = Err (UnboundLocalError "x"))).
Proof.
  destruct (In_dec_string m MatrixType.Get_types) as [Hm | Hm];
    [ | right; left; now apply factory_unregistered].
  destruct (In_dec_string e catalogue) as [He | He];
    [ | right; right; left; now apply factory_outside].
  pose proof (factory_catalogued e m He Hm) as H.
  destruct (entry e m) as [[s n] | ].
  - left. destruct H as [-> H]. exact H.
  - right; right; right. split; assumption.
Qed.

(** The degrees the factory passes to [leggauss] are tabulated ones, and
    the arrays it reshapes have the right size: [ValueError] never comes
    out. *)
Lemma leggauss_requested (e m : string) :
  Gauss._Gauss_factory e m <> Err ValueError.
Proof.
  destruct (factory_outcomes e m) as [H | [H | [H | [_ [H | H]]]]];
    rewrite ?H; try discriminate.
  intros E. rewrite E in H. discriminate.
Qed.

(** The fixed message comes out only for an element type that has no
    branch, whatever the matrix type. *)
Lemma not_implemented_only_outside (e m msg : string) :
  Gauss._Gauss_factory e m = Err (Exception msg) -> ~ In e catalogue.
Proof.
  intros H He.
  destruct (In_dec_string m MatrixType.Get_types) as [Hm | Hm].
  - pose proof (factory_catalogued e m He Hm) as F.
    destruct (entry e m) as [[s n] | ].
    + destruct F as [F1 F2]. rewrite <- F1, H in F2. discriminate.
    + destruct F as [F | F]; rewrite F in H; discriminate.
  - rewrite (factory_unregistered e m Hm) in H. discriminate.
Qed.

(** ** The prism as a product: auxiliary facts *)

Lemma product_rule_length tri line :
  List.length (product_rule tri line) =
  (List.length line * List.length tri)%nat.
Proof.
  unfold product_rule. induction line as [ | l line IH]; simpl.
  - reflexivity.
  - now rewrite length_app, length_map, IH.
Qed.

Lemma product_rule_in_plane tri line p :
  In p (product_rule tri line) -> In (in_plane p) (map fst tri).
Proof.
  unfold product_rule. rewrite in_flat_map.
  intros [l [_ Hp]]. apply in_map_iff in Hp.
  destruct Hp as [t [<- Ht]]. unfold in_plane; simpl.
  apply in_map_iff. exists t. split; [ | assumption].
  now destruct t as [[y z] w].
Qed.

Lemma three_in_two {A : Type} (a b c x y : A) :
  In a [x; y] -> In b [x; y] -> In c [x; y] -> a = b \/ a = c \/ b = c.
Proof.
  simpl. intros [Ha | [Ha | []]] [Hb | [Hb | []]] [Hc | [Hc | []]];
    subst; auto.
Qed.

Definition pair_eqb (p q : float * float) : bool :=
  PrimFloat.eqb (fst p) (fst q) && PrimFloat.eqb (snd p) (snd q).

Ltac distinct_pairs H :=
  match type of H with
  | ?a = _ =>
      apply (f_equal (pair_eqb a)) in H; vm_compute in H; discriminate H
  end.

(** ** Weight sums *)

(** Every rule of the segment, triangle, quadrilateral, tetrahedron and
    hexahedron families but the 6-point triangle rule sums to the measure
    of its reference element within [1e-12]. *)
Lemma weight_sums_elsewhere :
  forallb (fun r => weight_sum_ok (fst r) (snd r))
    [ (Segment, 1); (Segment, 2); (Segment, 3); (Segment, 4); (Segment, 6);
      (Triangle, 1); (Triangle, 3); (Triangle, 7); (Triangle, 12);
      (Quadrilateral, 4); (Quadrilateral, 9);
      (Tetrahedron, 1); (Tetrahedron, 4); (Tetrahedron, 5); (Tetrahedron, 15);
      (Hexahedron, 8); (Hexahedron, 27) ]%nat = true.
Proof. vm_compute. reflexivity. Qed.

(** C1 at the 6-point triangle rule, the rule of [("TRI6", "mass")] and of
    ["TRI10"]: its weights are three times [p2] and three times [p1],
    Python's [sum] of them is 0.49999999998544831, and their exact sum is
    more than [1.4e-11] away from the triangle's measure 1/2, so the check
    within [1e-12] fails. *)
Theorem triangle6_weight_sum :
  Gauss._Gauss_factory ElemType.TRI6 MatrixType.mass = rule Triangle 6 /\
  Gauss._Gauss_factory ElemType.TRI10 MatrixType.rigi = rule Triangle 6 /\
  rule_weights Triangle 6 =
    [0.0549758718227661; 0.0549758718227661; 0.0549758718227661;
     0.11169079483905; 0.11169079483905; 0.11169079483905] /\
  fsum (rule_weights Triangle 6) = 0.49999999998544831 /\
  (14 * qtol < Qabs (qsum (rule_weights Triangle 6) - measure Triangle))%Q /\
  weight_sum_ok Triangle 6 = false.
Proof. repeat split; vm_compute; reflexivity. Qed.

(** C2 as stated fails at the 6-point prism rule: its weights do not sum
    to 0.5 within the tolerance. *)
Lemma prism6_weight_sum_not_half : weight_sum_ok Prism 6 = false.
Proof. vm_compute. reflexivity. Qed.

(** C2, amended: the weights of the 6-point and of the 8-point prism rule
    both sum to 1.0 within the tolerance (in Python's sum and exactly), and
    the 8-point rule does so with two negative weights, -27/96 each. *)
Theorem prism_weight_sum_one :
  forallb
    (fun n => is_ok (rule Prism n) && sums_to (rule_weights Prism n) 1 1)
    (available Prism) = true /\
  filter negative (rule_weights Prism 8) = [(-27) / 96; (-27) / 96] /\
  filter negative (rule_weights Prism 6) = [].
Proof. repeat split; vm_compute; reflexivity. Qed.

(** ** The structure of the prism rules *)

(** C3 as stated fails at the 6-point rule: it is not the product of a
    2-point in-plane rule with a 3-point line rule (nor of a 4-point one
    with a 2-point one), in any order of the points. *)
Lemma prism6_not_two_by_three : ~ (built_from 6 2 3 \/ built_from 6 4 2).
Proof.
  intros [[tri [line [Ht [_ HP]]]] | [tri [line [Ht [Hl HP]]]]].
  - destruct tri as [ | t1 [ | t2 [ | ? ?]]]; try discriminate Ht.
    assert (H : forall p, In p (prism_raw 6) -> In (in_plane p) [fst t1; fst t2]).
    { intros p Hp. apply (product_rule_in_plane [t1; t2] line).
      eapply Permutation_in; eassumption. }
    set (a := 1 / sqrt 3).
    pose proof (H (-a, 0.5, 0.5, 1 / 6)) as H1.
    pose proof (H (-a, 0, 0.5, 1 / 6)) as H2.
    pose proof (H (-a, 0.5, 0, 1 / 6)) as H3.
    unfold in_plane in H1, H2, H3. simpl in H1, H2, H3.
    destruct (three_in_two (0.5, 0.5) (0, 0.5) (0.5, 0) (fst t1) (fst t2))
      as [E | [E | E]].
    + apply H1. vm_compute. auto.
    + apply H2. vm_compute. auto 6.
    + apply H3. vm_compute. auto 6.
    + distinct_pairs E.
    + distinct_pairs E.
    + distinct_pairs E.
  - apply Permutation_length in HP.
    rewrite product_rule_length, Ht, Hl in HP.
    vm_compute in HP. discriminate HP.
Qed.

(** C3, amended: the 6-point prism rule is the product of the 3-point
    mid-side triangle rule with the 2-point line rule, the 8-point rule the
    product of the 4-point centroid triangle rule with the 2-point line
    rule, level by level; the source computes the through-thickness array
    as X and the in-plane arrays as Y and Z, and exposes them in the order
    (Y, Z, X): each row of the rule is (in-plane-1, in-plane-2,
    through-thickness). *)
Theorem prism_product_structure :
  prism_raw 6 = product_rule midside_triangle (two_point_line (1 / sqrt 3)) /\
  prism_raw 8 =
    product_rule centroid_triangle (two_point_line 0.577350269189626) /\
  built_from 6 3 2 /\ built_from 8 4 2 /\
  Forall
    (fun n =>
       match Gauss._Prism_XYZ n with
       | Some (X, Y, Z, w) =>
           Gauss._Prism n = Ok (Lst Y, Lst Z, Lst X, Lst w)
       | None => False
       end /\
       rule_points Prism n =
         map (fun p => [fst (in_plane p); snd (in_plane p); thickness p])
           (prism_raw n) /\
       rule_weights Prism n = map snd (prism_raw n))
    (available Prism).
Proof.
  assert (H6 : prism_raw 6 =
               product_rule midside_triangle (two_point_line (1 / sqrt 3)))
    by (vm_compute; reflexivity).
  assert (H8 : prism_raw 8 =
               product_rule centroid_triangle
                 (two_point_line 0.577350269189626))
    by (vm_compute; reflexivity).
  split; [exact H6 | ]. split; [exact H8 | ].
  split; [ | split].
  - exists midside_triangle, (two_point_line (1 / sqrt 3)).
    rewrite H6. repeat split; reflexivity || apply Permutation_refl.
  - exists centroid_triangle, (two_point_line 0.577350269189626).
    rewrite H8. repeat split; reflexivity || apply Permutation_refl.
  - repeat (apply Forall_cons; [repeat split; vm_compute; reflexivity | ]).
    apply Forall_nil.
Qed.

(** ** Unsupported pairs *)

(** C4 as stated ("a pair without a table entry fails with the
    configuration error, whose message names the pair") fails at
    [("TRI3", "beam")]: the pair has no entry, and what is raised is not
    the factory's exception but [UnboundLocalError]. *)
Lemma tri3_beam_not_configuration_error :
  ~ (point_count ElemType.TRI3 MatrixType.beam = None ->
     exists msg,
       Gauss._Gauss_factory ElemType.TRI3 MatrixType.beam
         = Err (Exception msg) /\
       names msg ElemType.TRI3 = true /\ names msg MatrixType.beam = true).
Proof.
  intros H. destruct (H eq_refl) as [msg [E _]].
  vm_compute in E. discriminate E.
Qed.

(** C4, amended: a pair without an entry in the point-count table never
    gets a rule, so no default is substituted; when its element type is
    outside the catalogue (and the matrix type registered) the failure is
    the exception with the fixed message "Element not implemented.", which
    names neither member of the pair. *)
Theorem unsupported_pair_fails (e m : string) :
  point_count e m = None ->
  is_ok (Gauss._Gauss_factory e m) = false /\
  is_ok (Gauss.__init__ e m) = false /\
  (In m MatrixType.Get_types -> ~ In e catalogue ->
   Gauss._Gauss_factory e m = Err (Exception "Element not implemented.")).
Proof.
  intros H. apply point_count_entry in H.
  assert (F : is_ok (Gauss._Gauss_factory e m) = false).
  { destruct (factory_outcomes e m) as [K | [K | [K | [He [K | K]]]]];
      try (rewrite K; reflexivity).
    destruct (In_dec_string m MatrixType.Get_types) as [Hm | Hm];
      [ | now rewrite (factory_unregistered e m Hm)].
    destruct (In_dec_string e catalogue) as [He | He];
      [ | now rewrite (factory_outside e m Hm He)].
    pose proof (factory_catalogued e m He Hm) as G. rewrite H in G.
    destruct G as [G | G]; rewrite G; reflexivity. }
  split; [exact F | ]. split.
  - unfold Gauss.__init__.
    destruct (Gauss._Gauss_factory e m) as [[c w] | err];
      [discriminate F | reflexivity].
  - intros Hm He. now apply factory_outside.
Qed.

Lemma unsupported_pair_fails_witness :
  is_ok (Gauss._Gauss_factory "TRI3" "beam") = false /\
  is_ok (Gauss.__init__ "TRI3" "beam") = false /\
  (In "beam" MatrixType.Get_types -> ~ In "TRI3" catalogue ->
   Gauss._Gauss_factory "TRI3" "beam"
     = Err (Exception "Element not implemented.")).
Proof. exact (unsupported_pair_fails "TRI3" "beam" eq_refl). Defined.

(** The fixed message names no pair. *)
Lemma message_names_nothing :
  Gauss._Gauss_factory "PYRA5" "rigi"
    = Err (Exception "Element not implemented.") /\
  names "Element not implemented." "PYRA5" = false /\
  names "Element not implemented." "rigi" = false.
Proof. repeat split; vm_compute; reflexivity. Qed.

(** C9: for a registered matrix type, the exception with the message
    "Element not implemented." is raised exactly when the element type is
    outside the catalogue; a catalogued element type without a point count
    for the matrix type makes the factory die with [UnboundLocalError] (on
    [nPg] or on [x], neither ever assigned) and no rule is produced; the
    3- and 6-node triangles, the 8-node quadrilateral, the 4-node
    tetrahedron, the hexahedra and the prisms with the beam matrix type are
    such pairs. *)
Theorem not_implemented_iff_outside (e m : string) :
  In m MatrixType.Get_types ->
  (Gauss._Gauss_factory e m = Err (Exception "Element not implemented.")
   <-> ~ In e catalogue) /\
  (In e catalogue -> point_count e m = None ->
   (Gauss._Gauss_factory e m = Err (UnboundLocalError "nPg") \/
    Gauss._Gauss_factory e m = Err (UnboundLocalError "x")) /\
   is_ok (Gauss._Gauss_factory e m) = false) /\
  Forall
    (fun e' =>
       point_count e' MatrixType.beam = None /\
       exists v,
         Gauss._Gauss_factory e' MatrixType.beam = Err (UnboundLocalError v))
    [ElemType.TRI3; ElemType.TRI6; ElemType.QUAD8; ElemType.TETRA4;
     ElemType.HEXA8; ElemType.HEXA20; ElemType.PRISM6; ElemType.PRISM15].
Proof.
  intros Hm. split; [ | split].
  - split.
    + apply not_implemented_only_outside.
    + now apply factory_outside.
  - intros He H. apply point_count_entry in H.
    pose proof (factory_catalogued e m He Hm) as G. rewrite H in G.
    split; [exact G | ].
    destruct G as [G | G]; rewrite G; reflexivity.
  - repeat (apply Forall_cons;
            [split; [reflexivity | eexists; vm_compute; reflexivity] | ]).
    apply Forall_nil.
Qed.

Lemma not_implemented_iff_outside_witness :
  (Gauss._Gauss_factory "TRI3" "beam"
     = Err (Exception "Element not implemented.")
   <-> ~ In "TRI3" catalogue) /\
  (In "TRI3" catalogue -> point_count "TRI3" "beam" = None ->
   (Gauss._Gauss_factory "TRI3" "beam" = Err (UnboundLocalError "nPg") \/
    Gauss._Gauss_factory "TRI3" "beam" = Err (UnboundLocalError "x")) /\
   is_ok (Gauss._Gauss_factory "TRI3" "beam") = false).
Proof.
  assert (Hm : In "beam" MatrixType.Get_types) by (simpl; auto).
  pose proof (not_implemented_iff_outside "TRI3" "beam" Hm) as [H1 [H2 _]].
  split; [exact H1 | exact H2].
Defined.

(** ** Particular rules *)

(** C5: the 5-point tetrahedron rule has exactly one negative weight,
    [-2/15], at the centroid (1/4, 1/4, 1/4), its first point; the other
    four weights are [3/40]; together they sum to the measure 1/6. *)
Theorem tetrahedron5_negative_weight :
  Gauss._Tetrahedron 5 =
    Ok (Lst [1 / 4; 1 / 6; 1 / 6; 1 / 6; 1 / 2],
        Lst [1 / 4; 1 / 6; 1 / 6; 1 / 2; 1 / 6],
        Lst [1 / 4; 1 / 6; 1 / 2; 1 / 6; 1 / 6],
        Lst [(-2) / 15; 3 / 40; 3 / 40; 3 / 40; 3 / 40]) /\
  nth_error (rule_points Tetrahedron 5) 0 = Some [0.25; 0.25; 0.25] /\
  map exact [0.25; 0.25; 0.25] = [1 # 4; 1 # 4; 1 # 4]%Q /\
  rule_weights Tetrahedron 5 = [(-2) / 15; 3 / 40; 3 / 40; 3 / 40; 3 / 40] /\
  map negative (rule_weights Tetrahedron 5)
    = [true; false; false; false; false] /\
  (Qabs (exact ((-2) / 15) - (-2 # 15)) <= 1 # 10000000000000000)%Q /\
  (Qabs (exact (3 / 40) - (3 # 40)) <= 1 # 10000000000000000)%Q /\
  weight_sum_ok Tetrahedron 5 = true.
Proof. repeat split; vm_compute; try reflexivity; discriminate. Qed.

(** C6: for the 20-node hexahedron the stiffness and the mass matrix types
    both select the 8-point rule, the very rule of the 8-node hexahedron,
    with 8 points and 8 weights, not the 27-point one. *)
Theorem hexa20_eight_points :
  Forall
    (fun m =>
       Gauss._Gauss_factory ElemType.HEXA20 m = rule Hexahedron 8 /\
       Gauss._Gauss_factory ElemType.HEXA20 m <> rule Hexahedron 27 /\
       point_count ElemType.HEXA20 m = Some 8%nat /\
       option_map Gauss.nPg_of
         (match Gauss.__init__ ElemType.HEXA20 m with
          | Ok g => Some g
          | Err _ => None
          end) = Some 8%nat)
    [MatrixType.rigi; MatrixType.mass] /\
  is_ok (rule Hexahedron 8) = true /\
  List.length (rule_points Hexahedron 8) = 8%nat /\
  List.length (rule_points Hexahedron 27) = 27%nat.
Proof.
  split; [ | repeat split; vm_compute; reflexivity].
  repeat (apply Forall_cons;
          [repeat split; vm_compute; try reflexivity; discriminate | ]).
  apply Forall_nil.
Qed.

(** C7: the 3-node triangle with the stiffness matrix type gets one point,
    (1/3, 1/3), of weight 1/2; the 4-point quadrilateral rule (the 4-node
    quadrilateral with any matrix type, and the rule [_Quadrangle(4)]) has
    the points (-a,-a), (a,-a), (a,a), (-a,a) with a = 1/sqrt(3), one per
    combination of signs, each of weight 1; the 4-node tetrahedron with the
    stiffness matrix type gets one point, (1/4, 1/4, 1/4), of weight 1/6. *)
Theorem concrete_scenarios :
  Gauss._Gauss_factory ElemType.TRI3 MatrixType.rigi
    = Ok ([[1 / 3; 1 / 3]], [1 / 2]) /\
  (let a := 1 / sqrt 3 in
   Forall
     (fun m =>
        Gauss._Gauss_factory ElemType.QUAD4 m
          = Ok ([[-a; -a]; [a; -a]; [a; a]; [-a; a]], [1; 1; 1; 1]))
     MatrixType.Get_types /\
   rule Quadrilateral 4
     = Ok ([[-a; -a]; [a; -a]; [a; a]; [-a; a]], [1; 1; 1; 1]) /\
   (Qabs (exact a * exact a - (1 # 3)) <= 1 # 1000000000000000)%Q /\
   (exact (-a) == - exact a)%Q) /\
  Gauss._Gauss_factory ElemType.TETRA4 MatrixType.rigi
    = Ok ([[1 / 4; 1 / 4; 1 / 4]], [1 / 6]) /\
  (Qabs (exact (1 / 3) - (1 # 3)) <= 1 # 10000000000000000)%Q /\
  (Qabs (exact (1 / 6) - (1 # 6)) <= 1 # 10000000000000000)%Q /\
  exact (1 / 2) = (1 # 2)%Q /\ exact (1 / 4) = (1 # 4)%Q.
Proof.
  split; [vm_compute; reflexivity | ]. split.
  - cbv zeta. split; [ | split; [ | split]].
    + repeat (apply Forall_cons; [vm_compute; reflexivity | ]).
      apply Forall_nil.
    + vm_compute; reflexivity.
    + vm_compute; discriminate.
    + vm_compute; reflexivity.
  - repeat split; vm_compute; try reflexivity; discriminate.
Qed.

(** The higher-order triangles and tetrahedron get more points for the
    stiffness matrix type. *)
Lemma stiffness_counts_higher_order :
  map (fun e => point_count e MatrixType.rigi)
    [ElemType.TRI3; ElemType.TRI6; ElemType.TRI10;
     ElemType.TETRA4; ElemType.TETRA10]
  = [Some 1; Some 3; Some 6; Some 1; Some 4]%nat.
Proof. reflexivity. Qed.

(** ** Points inside the reference domains *)

(** C8: every point of every rule lies in the closed reference domain of
    its family, on exact values: the unit triangle, the square and the cube
    on [-1, 1], the unit tetrahedron, and for the prism the unit triangle
    in the two in-plane coordinates and [-1, 1] through the thickness.
    This holds for every point count a generator offers and for the rule of
    every supported pair (the segment in [-1, 1] included). *)
Theorem points_in_reference_domain :
  forallb
    (fun s =>
       forallb
         (fun n =>
            is_ok (rule s n) &&
            Nat.eqb (List.length (rule_points s n)) n &&
            forallb (in_domain s) (rule_points s n))
         (available s))
    [Segment; Triangle; Quadrilateral; Tetrahedron; Hexahedron; Prism]
    = true /\
  forallb
    (fun r =>
       match Gauss._Gauss_factory (fst (fst r)) (snd (fst r)) with
       | Ok (c, _) => forallb (in_domain (fst (snd r))) c
       | Err _ => false
       end)
    table = true.
Proof. split; vm_compute; reflexivity. Qed.

(** ** Independence from the matrix type *)

(** C10: for QUAD4, QUAD9, TRI10 and TETRA10 any two registered matrix
    types give the same result, a rule with the same rows and the same
    weights (hence the same number of points). *)
Theorem matrix_type_irrelevant (e m1 m2 : string) :
  In e [ElemType.QUAD4; ElemType.QUAD9; ElemType.TRI10; ElemType.TETRA10] ->
  In m1 MatrixType.Get_types -> In m2 MatrixType.Get_types ->
  Gauss._Gauss_factory e m1 = Gauss._Gauss_factory e m2 /\
  is_ok (Gauss._Gauss_factory e m1) = true /\
  point_count e m1 = point_count e m2.
Proof.
  intros He H1 H2. by_cases He; by_cases H1; by_cases H2;
    repeat split; vm_compute; reflexivity.
Qed.

Lemma matrix_type_irrelevant_witness :
  Gauss._Gauss_factory "TRI10" "rigi" = Gauss._Gauss_factory "TRI10" "beam" /\
  is_ok (Gauss._Gauss_factory "TRI10" "rigi") = true /\
  point_count "TRI10" "rigi" = point_count "TRI10" "beam".
Proof.
  apply (matrix_type_irrelevant "TRI10" "rigi" "beam");
    simpl; auto.
Defined.

(** The matrix type does matter elsewhere, e.g. for the 3-node triangle. *)
Lemma matrix_type_relevant_tri3 :
  Gauss._Gauss_factory ElemType.TRI3 MatrixType.rigi
    <> Gauss._Gauss_factory ElemType.TRI3 MatrixType.mass.
Proof. vm_compute. discriminate. Qed.

(** The constants of the 6-point rule as the tables of degree-4 triangle
    rules give them, 0.1116907948390055 and 0.054975871827661: the source's
    [p1] lacks a digit 0 and its [p2] has a digit 2 too many.  With the
    tabulated constants the weights do sum to 1/2 within the tolerance. *)
Lemma triangle6_tabulated_weights :
  let p1 := 0.1116907948390055 in
  let p2 := 0.054975871827661 in
  sums_to [p2; p2; p2; p1; p1; p1] (measure_float Triangle) (measure Triangle)
    = true.
Proof. vm_compute. reflexivity. Qed.


(** * Further properties of [_gauss.py] *)

(** ** The factory as a table lookup *)

(** The number of coordinates of a point: the [dim] a branch assigns. *)
Definition dimension (s : shape) : nat :=
  match s with
  | Segment => 1
  | Triangle | Quadrilateral => 2
  | Tetrahedron | Hexahedron | Prism => 3
  end.

Definition positive (w : float) : bool := PrimFloat.ltb 0 w.

(** What the rule of a table row looks like: as many rows and weights as
    the row's point count, which is one the generator offers; rows as wide
    as the family's dimension; outside the segment family (whose weights
    are those of the modelled [leggauss]) every weight above zero. *)
Definition row_invariant (r : string * string * (shape * nat)) : bool :=
  let s := fst (snd r) in
  let n := snd (snd r) in
  match Gauss._Gauss_factory (fst (fst r)) (snd (fst r)) with
  | Ok (c, w) =>
      existsb (Nat.eqb n) (available s) &&
      Nat.eqb (List.length c) n && Nat.eqb (List.length w) n &&
      forallb (fun p => Nat.eqb (List.length p) (dimension s)) c &&
      (match s with Segment => true | _ => forallb positive w end)
  | Err _ => false
  end.

(** The pairs (family, point count) that occur in the table. *)
Definition reachable : list (shape * nat) :=
  [ (Segment, 1); (Segment, 2); (Segment, 3); (Segment, 4); (Segment, 6);
    (Triangle, 1); (Triangle, 3); (Triangle, 6);
    (Quadrilateral, 4); (Quadrilateral, 9);
    (Tetrahedron, 1); (Tetrahedron, 4);
    (Hexahedron, 8); (Prism, 6) ]%nat.

Definition entry_eqb (a b : shape * nat) : bool :=
  Nat.eqb (snd a) (snd b) &&
  match fst a, fst b with
  | Segment, Segment | Triangle, Triangle | Quadrilateral, Quadrilateral
  | Tetrahedron, Tetrahedron | Hexahedron, Hexahedron | Prism, Prism => true
  | _, _ => false
  end.

Lemma lookup_In {A : Type} (e m : string) (t : list (string * string * A))
    (a : A) :
  lookup e m t = Some a -> In (e, m, a) t.
Proof.
  induction t as [ | [[e' m'] a'] t IH]; simpl; [discriminate | ].
  destruct (String.eqb_spec e e') as [-> | _];
    destruct (String.eqb_spec m m') as [-> | _]; simpl; intros H;
    try (right; now apply IH).
  left. now injection H as ->.
Qed.

Lemma table_invariant : forallb row_invariant table = true.
Proof. vm_compute. reflexivity. Qed.

Lemma table_reachable :
  forallb (fun r => existsb (entry_eqb (snd r)) reachable) table = true.
Proof. vm_compute. reflexivity. Qed.

Lemma entry_eqb_eq (a b : shape * nat) : entry_eqb a b = true -> a = b.
Proof.
  destruct a as [s n], b as [s' n']. unfold entry_eqb; simpl.
  intros H. apply andb_prop in H. destruct H as [Hn Hs].
  apply Nat.eqb_eq in Hn. subst n'.
  destruct s, s'; try discriminate Hs; reflexivity.
Qed.

Lemma entry_reachable (e m : string) (a : shape * nat) :
  entry e m = Some a -> In a reachable.
Proof.
  intros H. apply lookup_In in H.
  pose proof table_reachable as T. rewrite forallb_forall in T.
  specialize (T _ H). cbv beta in T. apply existsb_exists in T.
  destruct T as [b [Hb E]]. apply entry_eqb_eq in E. now subst.
Qed.

Lemma factory_ok_entry (e m : string) :
  is_ok (Gauss._Gauss_factory e m) = true ->
  exists s n, entry e m = Some (s, n).
Proof.
  intros H.
  destruct (In_dec_string m MatrixType.Get_types) as [Hm | Hm];
    [ | rewrite (factory_unregistered e m Hm) in H; discriminate H].
  destruct (In_dec_string e catalogue) as [He | He];
    [ | rewrite (factory_outside e m Hm He) in H; discriminate H].
  pose proof (factory_catalogued e m He Hm) as F.
  destruct (entry e m) as [[s n] | ]; [now exists s, n | ].
  destruct F as [F | F]; rewrite F in H; discriminate H.
Qed.

(** Two rules of the table are the same only for the same family and point
    count. *)
Lemma rule_injective (a b : shape * nat) :
  In a reachable -> In b reachable ->
  rule (fst a) (snd a) = rule (fst b) (snd b) -> a = b.
Proof.
  intros Ha Hb. by_cases Ha; by_cases Hb; intros H; try reflexivity;
    vm_compute in H; discriminate H.
Qed.

(** X1: the factory is the table.  A pair with an entry gets exactly the
    rule of the entry's family and point count (and that rule exists); a
    pair without one gets no rule. *)
Theorem factory_is_table (e m : string) :
  match entry e m with
  | Some (s, n) =>
      Gauss._Gauss_factory e m = rule s n /\ is_ok (rule s n) = true
  | None => is_ok (Gauss._Gauss_factory e m) = false
  end.
Proof.
  destruct (entry e m) as [[s n] | ] eqn:E.
  - destruct (entry_In e m (s, n) E) as [He Hm].
    pose proof (factory_catalogued e m He Hm) as F. now rewrite E in F.
  - destruct (is_ok (Gauss._Gauss_factory e m)) eqn:K; [ | reflexivity].
    destruct (factory_ok_entry e m K) as [s [n H]]. congruence.
Qed.

(** X2: whenever the factory returns, the pair has a table entry (s, n),
    [n] is a point count the generator of [s] offers, [coord] has [n] rows
    of as many coordinates as the dimension of [s], [weights] has [n]
    entries, and the object built by [__init__] holds exactly these two
    arrays, its [nPg] being [n]. *)
Theorem factory_shape (e m : string) (c : list (list float))
    (w : list float) :
  Gauss._Gauss_factory e m = Ok (c, w) ->
  exists s n,
    entry e m = Some (s, n) /\ In n (available s) /\
    List.length c = n /\ List.length w = n /\
    Forall (fun p => List.length p = dimension s) c /\
    exists g,
      Gauss.__init__ e m = Ok g /\ Gauss.coord g = c /\
      Gauss.weights_of g = w /\ Gauss.nPg_of g = n.
Proof.
  intros H.
  destruct (factory_ok_entry e m) as [s [n E]]; [now rewrite H | ].
  exists s, n. split; [exact E | ].
  pose proof table_invariant as T. rewrite forallb_forall in T.
  specialize (T _ (lookup_In _ _ _ _ E)).
  unfold row_invariant in T. simpl in T. rewrite H in T.
  repeat (apply andb_prop in T; destruct T as [T ?]).
  apply existsb_exists in T. destruct T as [n' [Hn' En]].
  apply Nat.eqb_eq in En. subst n'.
  repeat match goal with
         | K : Nat.eqb _ _ = true |- _ => apply Nat.eqb_eq in K
         end.
  split; [assumption | ]. split; [assumption | ]. split; [assumption | ].
  split.
  - apply Forall_forall. intros p Hp.
    match goal with
    | K : forallb _ c = true |- _ =>
        rewrite forallb_forall in K; specialize (K p Hp);
        now apply Nat.eqb_eq in K
    end.
  - exists (Gauss.Make c w). unfold Gauss.__init__. rewrite H. simpl.
    repeat split; try reflexivity. unfold Gauss.nPg_of. simpl. assumption.
Qed.

Lemma factory_shape_witness :
  exists s n,
    entry "QUAD8" "mass" = Some (s, n) /\ In n (available s) /\
    List.length (rule_points Quadrilateral 9) = n /\
    List.length (rule_weights Quadrilateral 9) = n /\
    Forall (fun p => List.length p = dimension s)
      (rule_points Quadrilateral 9) /\
    exists g,
      Gauss.__init__ "QUAD8" "mass" = Ok g /\
      Gauss.coord g = rule_points Quadrilateral 9 /\
      Gauss.weights_of g = rule_weights Quadrilateral 9 /\
      Gauss.nPg_of g = n.
Proof.
  apply (factory_shape "QUAD8" "mass"). vm_compute. reflexivity.
Defined.

(** X3: the rule of a pair depends on the pair only through its table
    entry, and determines it: two supported pairs get the same result
    exactly when they have the same family and point count (so HEXA8 and
    HEXA20, or PRISM6 and PRISM15, share their rule). *)
Theorem same_rule_iff_same_entry (e1 m1 e2 m2 : string) (a1 a2 : shape * nat) :
  entry e1 m1 = Some a1 -> entry e2 m2 = Some a2 ->
  (Gauss._Gauss_factory e1 m1 = Gauss._Gauss_factory e2 m2 <-> a1 = a2).
Proof.
  intros E1 E2.
  destruct (entry_In e1 m1 a1 E1) as [He1 Hm1].
  destruct (entry_In e2 m2 a2 E2) as [He2 Hm2].
  pose proof (factory_catalogued e1 m1 He1 Hm1) as F1. rewrite E1 in F1.
  pose proof (factory_catalogued e2 m2 He2 Hm2) as F2. rewrite E2 in F2.
  destruct a1 as [s1 n1], a2 as [s2 n2].
  destruct F1 as [F1 _], F2 as [F2 _]. rewrite F1, F2. split.
  - intros H.
    apply (rule_injective (s1, n1) (s2, n2));
      [eapply entry_reachable; eassumption
      | eapply entry_reachable; eassumption | exact H].
  - intros H. injection H as -> ->. reflexivity.
Qed.

Lemma same_rule_iff_same_entry_witness :
  Gauss._Gauss_factory "HEXA8" "rigi" = Gauss._Gauss_factory "HEXA20" "mass"
  <-> (Hexahedron, 8%nat) = (Hexahedron, 8%nat).
Proof.
  apply (same_rule_iff_same_entry "HEXA8" "rigi" "HEXA20" "mass");
    reflexivity.
Defined.

(** ** How the factory fails *)

(** X4: the failures of the factory, input by input.  [AssertionError]
    comes out exactly for an unregistered matrix type, whatever the element
    type; [UnboundLocalError] on [nPg] exactly for TRI3, TRI6, QUAD8 and
    TETRA4 with the beam type (the ladders without a beam case), on [x]
    exactly for the hexahedra and prisms with the beam type (where [nPg]
    and the arrays are assigned under one [if]); and every result is a
    rule or one of these three failures or the fixed exception. *)
Theorem factory_failures (e m : string) :
  (Gauss._Gauss_factory e m = Err AssertionError
   <-> ~ In m MatrixType.Get_types) /\
  (Gauss._Gauss_factory e m = Err (UnboundLocalError "nPg")
   <-> In e [ElemType.TRI3; ElemType.TRI6; ElemType.QUAD8; ElemType.TETRA4]
       /\ m = MatrixType.beam) /\
  (Gauss._Gauss_factory e m = Err (UnboundLocalError "x")
   <-> In e [ElemType.HEXA8; ElemType.HEXA20;
             ElemType.PRISM6; ElemType.PRISM15]
       /\ m = MatrixType.beam) /\
  (is_ok (Gauss._Gauss_factory e m) = true \/
   Gauss._Gauss_factory e m = Err AssertionError \/
   Gauss._Gauss_factory e m = Err (UnboundLocalError "nPg") \/
   Gauss._Gauss_factory e m = Err (UnboundLocalError "x") \/
   Gauss._Gauss_factory e m = Err (Exception "Element not implemented.")).
Proof.
  split; [ | split; [ | split]].
  - split; [ | apply factory_unregistered].
    intros H Hm.
    destruct (In_dec_string e catalogue) as [He | He];
      [ | rewrite (factory_outside e m Hm He) in H; discriminate H].
    by_cases He; by_cases Hm; vm_compute in H; discriminate H.
  - split.
    + intros H.
      destruct (In_dec_string m MatrixType.Get_types) as [Hm | Hm];
        [ | rewrite (factory_unregistered e m Hm) in H; discriminate H].
      destruct (In_dec_string e catalogue) as [He | He];
        [ | rewrite (factory_outside e m Hm He) in H; discriminate H].
      by_cases He; by_cases Hm; vm_compute in H; try discriminate H;
        (split; [in_list | reflexivity]).
    + intros [He ->]. by_cases He; vm_compute; reflexivity.
  - split.
    + intros H.
      destruct (In_dec_string m MatrixType.Get_types) as [Hm | Hm];
        [ | rewrite (factory_unregistered e m Hm) in H; discriminate H].
      destruct (In_dec_string e catalogue) as [He | He];
        [ | rewrite (factory_outside e m Hm He) in H; discriminate H].
      by_cases He; by_cases Hm; vm_compute in H; try discriminate H;
        (split; [in_list | reflexivity]).
    + intros [He ->]. by_cases He; vm_compute; reflexivity.
  - destruct (factory_outcomes e m) as [H | [H | [H | [_ [H | H]]]]]; auto 6.
Qed.

(** ** Weights of the rules the factory returns *)

(** X5: outside the segment family, every weight of every rule the factory
    returns is above zero: the two rules with negative weights, the 5-point
    tetrahedron rule and the 8-point prism rule, are never selected. *)
Theorem factory_weights_positive (e m : string) (s : shape) (n : nat) :
  entry e m = Some (s, n) -> s <> Segment ->
  Gauss._Gauss_factory e m = rule s n /\
  forallb positive (rule_weights s n) = true /\
  rule s n <> rule Tetrahedron 5 /\ rule s n <> rule Prism 8.
Proof.
  intros E Hs.
  destruct (entry_In e m (s, n) E) as [He Hm].
  pose proof (factory_catalogued e m He Hm) as F. rewrite E in F.
  destruct F as [F _]. split; [exact F | ].
  pose proof (entry_reachable e m (s, n) E) as R.
  simpl in R.
  repeat (destruct R as [R | R];
          [injection R as <- <-;
           try (exfalso; apply Hs; reflexivity);
           (split; [vm_compute; reflexivity
                   | split; intros K; vm_compute in K; discriminate K])
          | ]).
  contradiction.
Qed.

Lemma factory_weights_positive_witness :
  Gauss._Gauss_factory "TETRA4" "mass" = rule Tetrahedron 4 /\
  forallb positive (rule_weights Tetrahedron 4) = true /\
  rule Tetrahedron 4 <> rule Tetrahedron 5 /\
  rule Tetrahedron 4 <> rule Prism 8.
Proof.
  apply (factory_weights_positive "TETRA4" "mass");
    [reflexivity | discriminate].
Defined.

(** ** The generators outside their available point counts *)

Definition has (n : nat) (l : list nat) : bool := existsb (Nat.eqb n) l.

(** X6: each generator returns exactly for the point counts its docstring
    lists as available (1, 3, 6, 7, 12 for the triangle; 4, 9 for the
    quadrangle; 1, 4, 5, 15 for the tetrahedron; 8, 27 for the hexahedron;
    6, 8 for the prism); for any other [nPg] no branch assigns the arrays
    and the generator raises [UnboundLocalError] on the first name it
    reads ([ksis], [x], and [Y] in [_Prism]); it never returns a default
    rule. *)
Theorem generators_available (nPg : nat) :
  (if has nPg (available Triangle)
   then is_ok (Gauss._Triangle nPg) = true
   else Gauss._Triangle nPg = Err (UnboundLocalError "ksis")) /\
  (if has nPg (available Quadrilateral)
   then is_ok (Gauss._Quadrangle nPg) = true
   else Gauss._Quadrangle nPg = Err (UnboundLocalError "ksis")) /\
  (if has nPg (available Tetrahedron)
   then is_ok (Gauss._Tetrahedron nPg) = true
   else Gauss._Tetrahedron nPg = Err (UnboundLocalError "x")) /\
  (if has nPg (available Hexahedron)
   then is_ok (Gauss._Hexahedron nPg) = true
   else Gauss._Hexahedron nPg = Err (UnboundLocalError "x")) /\
  (if has nPg (available Prism)
   then is_ok (Gauss._Prism nPg) = true
   else Gauss._Prism nPg = Err (UnboundLocalError "Y")).
Proof.
  do 28 (destruct nPg as [ | nPg]; [repeat split; reflexivity | ]).
  repeat split; reflexivity.
Qed.

(** ** Degree of exactness *)

(** [w * x**a * y**b * ...] summed over the points, in binary64 and in the
    order of the arrays: the quadrature of the monomial with exponents [d]. *)
Definition fmonomial (p : list float) (d : list nat) : float :=
  fold_left (fun acc xk => acc * fpow (fst xk) (snd xk)) (combine p d) 1.

Definition quadrature (c : list (list float)) (w : list float)
    (d : list nat) : float :=
  fsum (map (fun pw => snd pw * fmonomial (fst pw) d) (combine c w)).

(** The integrals of the monomials over the reference elements: [x^a] over
    [-1, 1], [x^a y^b] over the unit triangle, [x^a y^b z^c] over the unit
    tetrahedron, and their products for the square, the cube and the prism
    (triangle in the first two coordinates, [-1, 1] in the third). *)
Definition qfact (n : nat) : Q := inject_Z (Z.of_nat (fact n)).

Definition over_line (a : nat) : Q :=
  if Nat.even a then (2 / inject_Z (Z.of_nat (a + 1)))%Q else 0%Q.

Definition over_triangle (a b : nat) : Q :=
  (qfact a * qfact b / qfact (a + b + 2))%Q.

Definition over_tetrahedron (a b c : nat) : Q :=
  (qfact a * qfact b * qfact c / qfact (a + b + c + 3))%Q.

Definition integral (s : shape) (d : list nat) : Q :=
  match s, d with
  | Segment, [a] => over_line a
  | Triangle, [a; b] => over_triangle a b
  | Quadrilateral, [a; b] => over_line a * over_line b
  | Tetrahedron, [a; b; c] => over_tetrahedron a b c
  | Hexahedron, [a; b; c] => over_line a * over_line b * over_line c
  | Prism, [a; b; c] => over_triangle a b * over_line c
  | _, _ => 0
  end%Q.

(** The error of the rule on a monomial, exactly. *)
Definition quadrature_error (s : shape) (n : nat) (d : list nat) : Q :=
  Qabs (exact (quadrature (rule_points s n) (rule_weights s n) d)
        - integral s d).

Definition within (t : Q) (s : shape) (n : nat) (d : list nat) : bool :=
  finite (quadrature (rule_points s n) (rule_weights s n) d) &&
  Qle_bool (quadrature_error s n d) t.

(** Exponents: of total degree at most [k] (triangle, tetrahedron), of
    degree at most [k] in each variable (quadrangle, hexahedron); for the
    prism total degree at most [k] in the plane and degree at most [kx]
    through the thickness. *)
Definition upto (k : nat) : list nat := seq 0 (S k).

Definition total2 (k : nat) : list (list nat) :=
  flat_map (fun a => map (fun b => [a; b]) (upto (k - a))) (upto k).

Definition total3 (k : nat) : list (list nat) :=
  flat_map
    (fun a =>
       flat_map (fun b => map (fun c => [a; b; c]) (upto (k - a - b)))
         (upto (k - a)))
    (upto k).

Definition each2 (k : nat) : list (list nat) :=
  flat_map (fun a => map (fun b => [a; b]) (upto k)) (upto k).

Definition each3 (k : nat) : list (list nat) :=
  flat_map
    (fun a => flat_map (fun b => map (fun c => [a; b; c]) (upto k)) (upto k))
    (upto k).

Definition exponents (s : shape) (k kx : nat) : list (list nat) :=
  match s with
  | Segment => map (fun a => [a]) (upto k)
  | Triangle => total2 k
  | Quadrilateral => each2 k
  | Tetrahedron => total3 k
  | Hexahedron => each3 k
  | Prism => flat_map (fun d => map (fun c => d ++ [c])%list (upto kx)) (total2 k)
  end.

(** The orders the docstrings of the generators give, by point count:
    [order = [1, 2, 3, 4, 5]] for the triangle, [[1, 2]] for the
    quadrangle, [[1, 2, 3, 5]] for the tetrahedron, [[3, 5]] for the
    hexahedron, [orderYZ = [2, 3]] and [orderX = [3, 3]] for the prism.
    Each row: family, point count, order, order through the thickness. *)
Definition documented_order : list (shape * nat * (nat * nat)) :=
  [ (Triangle, 1, (1, 0)); (Triangle, 3, (2, 0)); (Triangle, 6, (3, 0));
    (Triangle, 7, (4, 0)); (Triangle, 12, (5, 0));
    (Quadrilateral, 4, (1, 0)); (Quadrilateral, 9, (2, 0));
    (Tetrahedron, 1, (1, 0)); (Tetrahedron, 4, (2, 0));
    (Tetrahedron, 5, (3, 0)); (Tetrahedron, 15, (5, 0));
    (Hexahedron, 8, (3, 0)); (Hexahedron, 27, (5, 0));
    (Prism, 6, (2, 3)); (Prism, 8, (3, 3)) ]%nat.

(** The orders the tables reach. *)
Definition reached_order : list (shape * nat * (nat * nat)) :=
  [ (Triangle, 1, (1, 0)); (Triangle, 3, (2, 0)); (Triangle, 6, (4, 0));
    (Triangle, 7, (5, 0)); (Triangle, 12, (6, 0));
    (Quadrilateral, 4, (3, 0)); (Quadrilateral, 9, (5, 0));
    (Tetrahedron, 1, (1, 0)); (Tetrahedron, 4, (2, 0));
    (Tetrahedron, 5, (3, 0)); (Tetrahedron, 15, (5, 0));
    (Hexahedron, 8, (3, 0)); (Hexahedron, 27, (5, 0));
    (Prism, 6, (2, 3)); (Prism, 8, (3, 3)) ]%nat.

Definition exact_to (t : Q) (r : shape * nat * (nat * nat)) : bool :=
  let s := fst (fst r) in
  let n := snd (fst r) in
  forallb (within t s n) (exponents s (fst (snd r)) (snd (snd r))).

(** Some monomial one degree further is off by more than [t]. *)
Definition inexact_beyond (t : Q) (r : shape * nat * (nat * nat)) : bool :=
  let s := fst (fst r) in
  let n := snd (fst r) in
  existsb (fun d => negb (within t s n d))
    (exponents s (S (fst (snd r))) (snd (snd r))).

Definition is_triangle6 (r : shape * nat * (nat * nat)) : bool :=
  match fst (fst r), snd (fst r) with
  | Triangle, 6%nat => true
  | _, _ => false
  end.

(** X7: every rule integrates every monomial up to the order its docstring
    gives, within [1e-12] of the exact integral when the sum is evaluated in
    binary64; the 6-point triangle rule, with its two constants, does so
    within [2e-11] only. *)
Theorem documented_orders_hold :
  forallb (fun r => is_triangle6 r || exact_to qtol r) documented_order
    = true /\
  exact_to (20 * qtol) (Triangle, 6%nat, (3%nat, 0%nat)) = true /\
  exact_to qtol (Triangle, 6%nat, (3%nat, 0%nat)) = false.
Proof. repeat split; vm_compute; reflexivity. Qed.

(** X8: how far each rule goes.  Within [1e-10] the triangle rules are
    exact to degrees 1, 2, 4, 5, 6 (one more than documented for the 6-, 7-
    and 12-point rules), the quadrangle and hexahedron rules to degree 3
    and 5 in each variable, the tetrahedron rules to degrees 1, 2, 3, 5,
    the prism rules to degree 2 and 3 in the plane and 3 through the
    thickness; and none goes further: one degree higher some monomial is
    off by more than [1e-6] (for the prism, in the plane and through the
    thickness alike). *)
Theorem reached_orders_sharp :
  forallb
    (fun r =>
       exact_to (100 * qtol) r && inexact_beyond (1 # 1000000) r)
    reached_order = true /\
  forallb
    (fun n => negb (within (1 # 1000000) Prism n [0; 0; 4]%nat))
    (available Prism) = true.
Proof. split; vm_compute; reflexivity. Qed.

(** ** Symmetry and product structure of the tables *)

(** Matching two lists up to order, element by element under a boolean
    relation. *)
Section Matching.

Context {A : Type} (r : A -> A -> bool).

Fixpoint extract (x : A) (l : list A) : option (list A) :=
  match l with
  | [] => None
  | y :: l' =>
      if r x y then Some l' else option_map (cons y) (extract x l')
  end.

Fixpoint matches (l1 l2 : list A) : bool :=
  match l1 with
  | [] => match l2 with [] => true | _ :: _ => false end
  | x :: l1' =>
      match extract x l2 with
      | Some l2' => matches l1' l2'
      | None => false
      end
  end.

(** [l1] is [l2] in some order, up to [r]. *)
Definition same_up_to (l1 l2 : list A) : Prop :=
  exists l2', Permutation l2 l2' /\ Forall2 (fun a b => r a b = true) l1 l2'.

Lemma extract_sound (x : A) (l l' : list A) :
  extract x l = Some l' ->
  exists y, r x y = true /\ Permutation l (y :: l').
Proof.
  revert l'. induction l as [ | y l IH]; simpl; intros l' H.
  - discriminate H.
  - destruct (r x y) eqn:E.
    + injection H as <-. exists y. split; [exact E | apply Permutation_refl].
    + destruct (extract x l) as [l0 | ]; simpl in H; [ | discriminate H].
      injection H as <-.
      destruct (IH l0 eq_refl) as [z [Hz P]].
      exists z. split; [exact Hz | ].
      apply Permutation_trans with (y :: z :: l0).
      * now apply perm_skip.
      * apply perm_swap.
Qed.

Lemma matches_sound (l1 l2 : list A) :
  matches l1 l2 = true -> same_up_to l1 l2.
Proof.
  revert l2. induction l1 as [ | x l1 IH]; simpl; intros l2 H.
  - destruct l2; [ | discriminate H].
    exists []. split; constructor.
  - destruct (extract x l2) as [l2' | ] eqn:E; [ | discriminate H].
    destruct (extract_sound x l2 l2' E) as [y [Hy P]].
    destruct (IH l2' H) as [l3 [P3 F]].
    exists (y :: l3). split.
    + apply Permutation_trans with (y :: l2'); [exact P | ].
      now apply perm_skip.
    + now constructor.
Qed.

End Matching.

(** A point with its weight. *)
Definition weighted_points (s : shape) (n : nat) : list (list float * float) :=
  combine (rule_points s n) (rule_weights s n).

Fixpoint all2 (r : float -> float -> bool) (p q : list float) : bool :=
  match p, q with
  | [], [] => true
  | x :: p', y :: q' => r x y && all2 r p' q'
  | _, _ => false
  end.

(** Equal as Python compares floats: [==] on every coordinate and on the
    weight. *)
Definition point_eqb (p q : list float * float) : bool :=
  all2 PrimFloat.eqb (fst p) (fst q) && PrimFloat.eqb (snd p) (snd q).

(** Equal coordinates, weights within [1e-15]. *)
Definition point_close (p q : list float * float) : bool :=
  all2 PrimFloat.eqb (fst p) (fst q) &&
  PrimFloat.leb (abs (snd p - snd q)) 1e-15.

(** Moves of a point: exchanging two neighbouring coordinates, mirroring
    one. *)
Definition swap01 (p : list float) : list float :=
  match p with
  | x :: y :: p' => y :: x :: p'
  | _ => p
  end.

Definition swap12 (p : list float) : list float :=
  match p with
  | x :: y :: z :: p' => x :: z :: y :: p'
  | _ => p
  end.

Fixpoint mirror (i : nat) (p : list float) : list float :=
  match p, i with
  | [], _ => []
  | x :: p', O => - x :: p'
  | x :: p', S i' => x :: mirror i' p'
  end.

(** The moves that map the reference element of a family onto itself and
    act on the coordinates alone: the triangle's diagonal reflection, the
    square's and the cube's reflections, the permutations of the axes of
    the tetrahedron and of the cube; for the prism, rows being (in-plane,
    in-plane, through-thickness), the reflection in the plane and the
    mirror through the thickness. *)
Definition moves (s : shape) : list (list float -> list float) :=
  match s with
  | Segment => [mirror 0]
  | Triangle => [swap01]
  | Quadrilateral => [swap01; mirror 0; mirror 1]
  | Tetrahedron => [swap01; swap12]
  | Hexahedron => [swap01; swap12; mirror 0; mirror 1; mirror 2]
  | Prism => [swap01; mirror 2]
  end.

Definition moved (f : list float -> list float)
    (l : list (list float * float)) : list (list float * float) :=
  map (fun pw => (f (fst pw), snd pw)) l.

Definition invariant_under (s : shape) (n : nat)
    (f : list float -> list float) : Prop :=
  same_up_to point_eqb (moved f (weighted_points s n)) (weighted_points s n).

(** X9: every rule of the triangle, quadrangle, tetrahedron, hexahedron
    and prism tables is symmetric: each move of its reference element
    above sends the points of the rule, with their weights, onto the points
    of the rule in another order, coordinate for coordinate and weight for
    weight. *)
Theorem rules_symmetric :
  Forall
    (fun s =>
       Forall (fun n => Forall (invariant_under s n) (moves s)) (available s))
    [Triangle; Quadrilateral; Tetrahedron; Hexahedron; Prism].
Proof.
  repeat (apply Forall_cons || apply Forall_nil);
    apply matches_sound; vm_compute; reflexivity.
Qed.

(** The product of one-dimensional rules: every combination of nodes, the
    weights multiplied. *)
Fixpoint grid (line : list (float * float)) (d : nat)
  : list (list float * float) :=
  match d with
  | O => [([], 1)]
  | S d' =>
      flat_map
        (fun xw => map (fun pw => (fst xw :: fst pw, snd xw * snd pw))
                     (grid line d'))
        line
  end.

(** The Gauss-Legendre rules with two and three points, given the
    abscissa. *)
Definition gauss2 (a : float) : list (float * float) := [(-a, 1); (a, 1)].

Definition gauss3 (a : float) : list (float * float) :=
  [(-a, 5 / 9); (0, 8 / 9); (a, 5 / 9)].

(** X10: the quadrangle and hexahedron tables are tensor products.  The
    4-point and 8-point rules are the grids of the 2-point rule with
    abscissa 1/sqrt(3) in two and three dimensions; the 9-point and
    27-point rules the grids of the 3-point rule with weights 5/9, 8/9,
    5/9, with abscissa 0.774596669241483 in [_Quadrangle] and sqrt(3/5) in
    [_Hexahedron]: the same points, each once, in another order, and
    weights equal to the products within [1e-15]. *)
Theorem tensor_product_rules :
  same_up_to point_close (grid (gauss2 (1 / sqrt 3)) 2)
    (weighted_points Quadrilateral 4) /\
  same_up_to point_close (grid (gauss3 0.774596669241483) 2)
    (weighted_points Quadrilateral 9) /\
  same_up_to point_close (grid (gauss2 (1 / sqrt 3)) 3)
    (weighted_points Hexahedron 8) /\
  same_up_to point_close (grid (gauss3 (sqrt (3 / 5))) 3)
    (weighted_points Hexahedron 27).
Proof. repeat split; apply matches_sound; vm_compute; reflexivity. Qed.
